(** * go-echo-practice: a shallow embedding of the example servers

    The repository holds four small [main] programs written against the
    Echo web framework and one [config] package:

    - [q1-simple-server/cmd/main.go]: [GET /] returning a literal string;
    - [q2-json-response/main.go]: three [GET] routes returning literal JSON
      and [POST /users], which binds the request body to a struct and
      echoes it;
    - an earlier revision of the same program without [POST /users];
    - [todo-app/main.go]: loads the configuration, then serves [GET /];
    - package [config]: [LoadConfig] and [getEnv].

    Go code runs in a process: it reads and writes the environment, writes
    to the log, binds listeners and may call [os.Exit].  The embedding keeps
    all of that in an explicit [World] that is threaded through a small
    monad [Proc]; the library functions the programs call ([os.Getenv],
    [log.Fatal], [godotenv.Load], Echo's [Bind], [JSON], [String], [Start])
    are modelled next to the code that uses them. *)

From stdpp Require Import base option list strings gmap sorting pretty.

Local Open Scope string_scope.
Local Open Scope Z_scope.
Local Set Warnings "-register-all".

(** ** JSON values *)

(** A JSON text as [encoding/json] sees it.  A number keeps its literal;
    an object keeps its members in order, duplicates included. *)
Inductive json : Type :=
| JNull
| JBool (b : bool)
| JNum (lit : string)
| JStr (s : string)
| JArr (items : list json)
| JObj (members : list (string * json)).

(** Go's [error] values, as far as these programs meet them; a [nil]
    error is [None]. *)
Inductive Err : Type :=
| ErrNoDotenv
| SyntaxError
| UnmarshalTypeError (value field : string)
| ErrUnsupportedMediaType
| ErrListen
| ErrServerClosed.

Abbreviation error := (option Err).

(** ** The process *)

Inductive Method : Type := GET | HEAD | POST | PUT | PATCH | DELETE | OPTIONS.

Global Instance Method_eq_dec : EqDecision Method.
Proof. solve_decision. Defined.

(** What the process has written to its log: the message of [log.Fatal],
    the error handed to Echo's [Logger.Fatal], the message and the error
    handed to Echo's [Logger.Error], the line of the request logger. *)
Inductive LogEntry : Type :=
| LogFatal (msg : string)
| LogServerFatal (err : error)
| LogServerError (msg : string) (err : error)
| LogRequest (m : Method) (uri : string) (status : Z).

(** The part of the process state the programs touch, and the part of
    its surroundings that decides what they do.  [dotenv_file] is the
    parsed content of [./.env], or [None] when the file is missing or
    cannot be parsed.  [can_listen] tells whether the process can listen on
    an address: the address is well formed and free.  [stopped] is the
    error a server that is listening ends with: under Echo v4 it is never
    [nil]; under Echo v5 it is [nil] after a clean stop. *)
Record World : Type := mkWorld {
  environ : gmap string string;
  dotenv_file : option (gmap string string);
  logged : list LogEntry;
  listeners : list string;
  can_listen : string → bool;
  stopped : error;
}.

Definition set_environ (env : gmap string string) (w : World) : World :=
  {| environ := env; dotenv_file := dotenv_file w;
     logged := logged w; listeners := listeners w;
     can_listen := can_listen w; stopped := stopped w |}.

Definition add_log (l : LogEntry) (w : World) : World :=
  {| environ := environ w; dotenv_file := dotenv_file w;
     logged := logged w ++ [l]; listeners := listeners w;
     can_listen := can_listen w; stopped := stopped w |}.

Definition add_listener (addr : string) (w : World) : World :=
  {| environ := environ w; dotenv_file := dotenv_file w;
     logged := logged w; listeners := listeners w ++ [addr];
     can_listen := can_listen w; stopped := stopped w |}.

(** A computation either returns a value or ends the process with an exit
    status; in both cases it leaves a world behind. *)
Inductive Outcome (A : Type) : Type :=
| Returns (a : A) (w : World)
| Exits (code : Z) (w : World).
Arguments Returns {A} a w.
Arguments Exits {A} code w.

Definition Proc (A : Type) : Type := World → Outcome A.

Global Instance Proc_ret : MRet Proc := λ A a w, Returns a w.

Global Instance Proc_bind : MBind Proc := λ A B f m w,
  match m w with
  | Returns a w' => f a w'
  | Exits code w' => Exits code w'
  end.

Definition world_of {A} (o : Outcome A) : World :=
  match o with Returns _ w => w | Exits _ w => w end.

Definition exit_code {A} (o : Outcome A) : option Z :=
  match o with Returns _ _ => None | Exits code _ => Some code end.

(** ** Package [os] *)
Module os.

(** [os.Getenv]: the value of the variable, empty when it is not set. *)
Definition Getenv (key : string) : Proc string :=
  λ w, Returns (default "" (environ w !! key)) w.

Definition Exit {A} (code : Z) : Proc A := λ w, Exits code w.

End os.

(** ** Package [log] *)
Module log.

(** [log.Fatal] is [Print] followed by [os.Exit(1)]. *)
Definition Fatal {A} (msg : string) : Proc A :=
  λ w, os.Exit 1 (add_log (LogFatal msg) w).

End log.

(** ** Package [godotenv] *)
Module godotenv.

(** [loadFile(".env", false)]: every pair of the file whose key is not
    in the environment as it was before the call is set with
    [os.Setenv]; a variable that is set, even to the empty string, is
    kept. *)
Definition loadFile (envMap env : gmap string string) : gmap string string :=
  map_fold (λ key value acc,
              if decide (is_Some (env !! key)) then acc
              else <[key := value]> acc)
           env envMap.

(** [godotenv.Load()]: the error of a missing file is returned to the
    caller and nothing is set. *)
Definition Load : Proc error :=
  λ w, match dotenv_file w with
       | None => Returns (Some ErrNoDotenv) w
       | Some envMap => Returns None (set_environ (loadFile envMap (environ w)) w)
       end.

End godotenv.

(** ** Package [config] *)
Module config.

Record Config : Type := mkConfig {
  AppEnv : string;
  Port : string;
  DBURI : string;
}.

Definition getEnv (key defaultValue : string) : Proc string :=
  value ← os.Getenv key;
  if decide (value ≠ "") then mret value else mret defaultValue.

Definition LoadConfig : Proc Config :=
  _ ← godotenv.Load;
  appEnv ← getEnv "APP_ENV" "development";
  port ← getEnv "PORT" "8080";
  dbURI ← getEnv "DB_URI" "";
  let cfg := {| AppEnv := appEnv; Port := port; DBURI := dbURI |} in
  (if decide (DBURI cfg = "")
   then log.Fatal "DB_URI is required but not set"
   else mret tt);;
  mret cfg.

End config.

(** ** Package [net/http] *)
Module http.

Definition StatusOK : Z := 200.
Definition StatusNoContent : Z := 204.
Definition StatusBadRequest : Z := 400.
Definition StatusNotFound : Z := 404.
Definition StatusMethodNotAllowed : Z := 405.

Definition StatusText (code : Z) : string :=
  if decide (code = 200) then "OK"
  else if decide (code = 400) then "Bad Request"
  else if decide (code = 404) then "Not Found"
  else if decide (code = 405) then "Method Not Allowed"
  else "".

(** The body of a request as Echo's binder looks at it: no body at all
    ([Content-Length: 0]); a body sent as [application/json], given by
    the JSON value its text starts with, or [None] when the text is not
    JSON; a body of a media type the binder does not know.  The binder
    also takes bodies sent as XML and as forms: those are not in this
    type, and nothing below speaks of them. *)
Inductive Payload : Type :=
| Empty
| JSONText (v : option json)
| Unsupported.

Record Request : Type := mkRequest {
  ReqMethod : Method;
  URLPath : string;
  Body : Payload;
}.

End http.

(** ** Package [encoding/json] *)
Module encoding_json.

(** [json.Marshal] and [json.Unmarshal] work by reflection on the type
    of their argument; here a type says how through an instance. *)
Class Marshaler (A : Type) := Marshal : A → json.
Class Unmarshaler (A : Type) := Unmarshal : json → A → A * error.

Global Instance int_Marshaler : Marshaler Z := λ n, JNum (pretty n).
Global Instance string_Marshaler : Marshaler string := JStr.

(** The values the programs store in a [map[string]interface{}]. *)
Inductive any : Type :=
| AnyInt (n : Z)
| AnyString (s : string).

Global Instance any_Marshaler : Marshaler any := λ v,
  match v with
  | AnyInt n => Marshal n
  | AnyString s => Marshal s
  end.

Definition key_le (x y : string * json) : Prop := String.leb x.1 y.1 = true.

Global Instance key_le_dec : RelDecision key_le.
Proof. intros x y. unfold key_le. apply _. Defined.

(** A map is written as an object with its keys sorted. *)
Global Instance map_Marshaler : Marshaler (gmap string any) := λ m,
  JObj (merge_sort key_le (map_to_list (Marshal <$> m))).

(** A struct field tagged [omitempty] is left out when it is empty. *)
Definition omitempty (name value : string) : list (string * json) :=
  if decide (value = "") then [] else [(name, JStr value)].

Definition upper (c : Ascii.ascii) : Ascii.ascii :=
  let n := Ascii.N_of_ascii c in
  if decide (97 ≤ n ≤ 122)%N then Ascii.ascii_of_N (n - 32) else c.

(** Object keys match field names without regard to the case of ASCII
    letters. *)
Fixpoint equalFold (s t : string) : bool :=
  match s, t with
  | EmptyString, EmptyString => true
  | String a s', String b t' => bool_decide (upper a = upper b) && equalFold s' t'
  | _, _ => false
  end.

Definition kind (v : json) : string :=
  match v with
  | JNull => "null"
  | JBool _ => "bool"
  | JNum _ => "number"
  | JStr _ => "string"
  | JArr _ => "array"
  | JObj _ => "object"
  end.

(** Storing a value into a field of type [string]: a string is stored,
    [null] leaves the field as it is, anything else is a type error. *)
Definition storeString (field : string) (v : json) (old : string) : string * error :=
  match v with
  | JStr s => (s, None)
  | JNull => (old, None)
  | _ => (old, Some (UnmarshalTypeError (kind v) field))
  end.

(** The first error met is the one reported; decoding goes on. *)
Definition saveError (saved err : error) : error :=
  match saved with
  | Some _ => saved
  | None => err
  end.

(** Decoding into a struct: [null] changes nothing, an object assigns
    its members in order, any other value is a type error. *)
Definition object {A} (name : string) (setField : string → json → A → A * error)
    (v : json) (x : A) : A * error :=
  match v with
  | JNull => (x, None)
  | JObj members =>
      foldl (λ acc kv, let '(x', e) := setField kv.1 kv.2 acc.1 in
                       (x', saveError acc.2 e))
            (x, None) members
  | _ => (x, Some (UnmarshalTypeError (kind v) name))
  end.

End encoding_json.

(** ** Package [echo] *)
Module echo.
Import encoding_json.

Inductive Content : Type :=
| Nothing
| Text (s : string)
| JSONDoc (j : json).

(** What a handler commits on its context: the status and the body. *)
Record Response : Type := mkResponse {
  Status : Z;
  Written : Content;
}.

Record Context : Type := mkContext {
  Request : http.Request;
}.

(** A Go handler writes its response through the context and returns an
    error; here it returns the response it wrote.  It runs in the
    process, so it is a [Proc]. *)
Definition HandlerFunc : Type := Context → Proc Response.
Definition MiddlewareFunc : Type := HandlerFunc → HandlerFunc.

Abbreviation Map := (gmap string any).

Definition JSON {A} `{Marshaler A} (c : Context) (code : Z) (i : A) : Proc Response :=
  mret (mkResponse code (JSONDoc (Marshal i))).

Definition NoContent (c : Context) (code : Z) : Proc Response :=
  mret (mkResponse code Nothing).

(** [DefaultBinder.BindBody].  The structs of these programs carry no
    [param] or [query] tags, so the body is all that [Bind] binds. *)
Definition BindBody {A} `{Unmarshaler A} (c : Context) (i : A) : A * error :=
  match http.Body (Request c) with
  | http.Empty => (i, None)
  | http.JSONText None => (i, Some SyntaxError)
  | http.JSONText (Some v) => Unmarshal v i
  | http.Unsupported => (i, Some ErrUnsupportedMediaType)
  end.

Definition Bind {A} `{Unmarshaler A} (c : Context) (i : A) : A * error :=
  BindBody c i.

Record Route : Type := mkRoute {
  RouteMethod : Method;
  RoutePath : string;
  RouteHandler : HandlerFunc;
}.

Record Echo : Type := mkEcho {
  middleware : list MiddlewareFunc;
  routes : list Route;
}.

Definition New : Echo := mkEcho [] [].

Definition Use (m : MiddlewareFunc) (e : Echo) : Echo :=
  mkEcho (middleware e ++ [m]) (routes e).

(** A route registered later for the same method and path replaces the
    earlier one: new routes go to the front and the first match wins. *)
Definition Add (method : Method) (path : string) (h : HandlerFunc) (e : Echo) : Echo :=
  mkEcho (middleware e) (mkRoute method path h :: routes e).

(** [DefaultHTTPErrorHandler] on the errors of the router. *)
Definition DefaultHTTPErrorHandler (code : Z) : HandlerFunc := λ c,
  if decide (http.ReqMethod (Request c) = HEAD) then NoContent c code
  else JSON c code ({[ "message" := AnyString (http.StatusText code) ]} : Map).

Definition matches (method : Method) (path : string) (r : Route) : bool :=
  bool_decide (RouteMethod r = method) && bool_decide (RoutePath r = path).

(** What the router answers to [OPTIONS] on a path that has routes. *)
Definition optionsMethodHandler : HandlerFunc := λ c,
  NoContent c http.StatusNoContent.

(** The router: the handler of the route with this method and path; on
    a path that has routes under other methods only, the answer to
    [OPTIONS] or the error "method not allowed"; on a path without routes,
    the error "not found". *)
Definition Find (method : Method) (path : string) (e : Echo) : HandlerFunc :=
  match List.find (matches method path) (routes e) with
  | Some r => RouteHandler r
  | None =>
      if existsb (λ r, bool_decide (RoutePath r = path)) (routes e)
      then if decide (method = OPTIONS) then optionsMethodHandler
           else DefaultHTTPErrorHandler http.StatusMethodNotAllowed
      else DefaultHTTPErrorHandler http.StatusNotFound
  end.

(** The middleware registered first is the outermost. *)
Definition applyMiddleware (h : HandlerFunc) (ms : list MiddlewareFunc) : HandlerFunc :=
  foldr (λ m acc, m acc) h ms.

Definition ServeHTTP (e : Echo) (r : http.Request) : Proc Response :=
  let c := mkContext r in
  applyMiddleware (Find (http.ReqMethod r) (http.URLPath r) e) (middleware e) c.

(** [e.Start] listens on the address and serves until the server stops,
    and returns the error the server ended with; when it cannot listen
    on the address it binds nothing and returns the error at once. *)
Definition Start (e : Echo) (address : string) : Proc error :=
  λ w, if can_listen w address
       then Returns (stopped w) (add_listener address w)
       else Returns (Some ErrListen) w.

Module Logger.

Definition Error (msg : string) (err : error) : Proc unit :=
  λ w, Returns tt (add_log (LogServerError msg err) w).

(** [Fatal] logs its argument and calls [os.Exit(1)]. *)
Definition Fatal {A} (err : error) : Proc A :=
  λ w, os.Exit 1 (add_log (LogServerFatal err) w).

End Logger.

Definition GET : string → HandlerFunc → Echo → Echo := Add GET.
Definition POST : string → HandlerFunc → Echo → Echo := Add POST.

Definition String (c : Context) (code : Z) (s : string) : Proc Response :=
  mret (mkResponse code (Text s)).

End echo.

Module middleware.

Definition logValues (c : echo.Context) (res : echo.Response) : Proc unit :=
  λ w, Returns tt (add_log (LogRequest (http.ReqMethod (echo.Request c))
                                       (http.URLPath (echo.Request c))
                                       (echo.Status res)) w).

(** [middleware.RequestLogger]: one log line per request, written after
    the handler has run. *)
Definition RequestLogger : echo.MiddlewareFunc := λ next c,
  res ← next c;
  logValues c res;;
  mret res.

End middleware.

(** The server at work: the requests are served one after the other, each
    in the world the one before left. *)
Definition serve (e : echo.Echo) (requests : list http.Request) : Proc (list echo.Response) :=
  mapM (echo.ServeHTTP e) requests.

(** ** The programs *)

(** [q1-simple-server/cmd/main.go] *)
Module q1_simple_server.

(** The handler of [GET /]. *)
Definition GET_root : echo.HandlerFunc := λ c,
  echo.String c 200 "Hello world".

Definition e : echo.Echo :=
  let e := echo.New in
  echo.GET "/" GET_root e.

Definition main : Proc unit :=
  _ ← echo.Start e ":0";
  mret tt.

End q1_simple_server.

(** [q2-json-response/main.go] *)
Module q2_json_response.
Import encoding_json.

(** The [Name] field of [User] is [User_Name] here, for
    [UserSignupRequest] has a [Name] of its own. *)
Record User : Type := mkUser {
  Id : Z;
  User_Name : string;
}.

Record UserSignupRequest : Type := mkUserSignupRequest {
  Name : string;
  Email : string;
}.

(** [`json:"id"`] and [`json:"name"`] *)
Global Instance User_Marshaler : Marshaler User := λ u,
  JObj [("id", Marshal (Id u)); ("name", Marshal (User_Name u))].

(** [`json:"name,omitempty"`] and [`json:"email"`] *)
Global Instance UserSignupRequest_Marshaler : Marshaler UserSignupRequest := λ u,
  JObj (omitempty "name" (Name u) ++ [("email", Marshal (Email u))]).

Definition setField (key : string) (v : json) (u : UserSignupRequest)
    : UserSignupRequest * error :=
  if equalFold key "name" then
    let '(s, err) := storeString "name" v (Name u) in
    ({| Name := s; Email := Email u |}, err)
  else if equalFold key "email" then
    let '(s, err) := storeString "email" v (Email u) in
    ({| Name := Name u; Email := s |}, err)
  else (u, None).

Global Instance UserSignupRequest_Unmarshaler : Unmarshaler UserSignupRequest :=
  object "UserSignupRequest" setField.

(** [var userReq UserSignupRequest] *)
Definition zero : UserSignupRequest := {| Name := ""; Email := "" |}.

(** The handler of [GET /users]. *)
Definition GET_users : echo.HandlerFunc := λ c,
  echo.JSON c http.StatusOK
    ({[ "id" := AnyInt 1; "name" := AnyString "john" ]} : echo.Map).

(** The handler of [GET /user]: using [echo.Map]. *)
Definition GET_user : echo.HandlerFunc := λ c,
  echo.JSON c http.StatusOK
    ({[ "id" := AnyInt 1; "name" := AnyString "John" ]} : echo.Map).

(** The handler of [GET /users2]: using a struct. *)
Definition GET_users2 : echo.HandlerFunc := λ C,
  echo.JSON C 200 {| Id := 2; User_Name := "john 2" |}.

(** The handler of [POST /users]: JSON to struct, struct to JSON. *)
Definition POST_users : echo.HandlerFunc := λ c,
  let userReq := zero in
  let '(userReq, err) := echo.Bind c userReq in
  match err with
  | Some _ =>
      echo.JSON c http.StatusBadRequest
        ({[ "message" := AnyString "invalid request payload" ]} : echo.Map)
  | None => echo.JSON c 200 userReq
  end.

Definition e : echo.Echo :=
  let e := echo.New in
  let e := echo.GET "/users" GET_users e in
  let e := echo.GET "/user" GET_user e in
  let e := echo.GET "/users2" GET_users2 e in
  echo.POST "/users" POST_users e.

Definition main : Proc unit :=
  err ← echo.Start e "127.0.0.1:3000";
  echo.Logger.Fatal err.

End q2_json_response.

(** The earlier revision of the JSON server: the same three [GET] routes
    and no [POST /users]. *)
Module json_response_get_only.

(** The three handlers read as they do in [q2-json-response/main.go]. *)
Definition e : echo.Echo :=
  let e := echo.New in
  let e := echo.GET "/users" q2_json_response.GET_users e in
  let e := echo.GET "/user" q2_json_response.GET_user e in
  echo.GET "/users2" q2_json_response.GET_users2 e.

Definition main : Proc unit :=
  err ← echo.Start e "127.0.0.1:3000";
  echo.Logger.Fatal err.

End json_response_get_only.

(** [todo-app/main.go] *)
Module todo_app.

(** The handler of [GET /]; it is a closure over [cfg]. *)
Definition GET_root (cfg : config.Config) : echo.HandlerFunc := λ c,
  echo.String c 200 ("Todo API running in " +:+ config.AppEnv cfg +:+ " mode").

(** The routes of [main], given the configuration it has loaded. *)
Definition routes (cfg : config.Config) : echo.Echo :=
  let e := echo.New in
  let e := echo.Use middleware.RequestLogger e in
  echo.GET "/" (GET_root cfg) e.

Definition main : Proc unit :=
  cfg ← config.LoadConfig;
  let e := routes cfg in
  let port := ":" +:+ config.Port cfg in
  err ← echo.Start e port;
  match err with
  | Some _ => echo.Logger.Error "failed to start server" err
  | None => mret tt
  end.

End todo_app.

(** The servers of the repository. *)
Inductive Program : Type :=
| SimpleServer
| JSONResponse
| JSONResponseGetOnly
| TodoApp (cfg : config.Config).

Definition server (p : Program) : echo.Echo :=
  match p with
  | SimpleServer => q1_simple_server.e
  | JSONResponse => q2_json_response.e
  | JSONResponseGetOnly => json_response_get_only.e
  | TodoApp cfg => todo_app.routes cfg
  end.

(** A handler that neither reads nor writes the world: its response is a
    function of the request alone and the world is handed back as it was. *)
Definition stateless (h : echo.HandlerFunc) : Prop :=
  ∀ c, ∃ res, ∀ w, h c w = Returns res w.

(** The most a request does to the world: it adds lines to the log. *)
Definition quiet (w w' : World) : Prop :=
  environ w' = environ w ∧ dotenv_file w' = dotenv_file w ∧
  listeners w' = listeners w ∧ ∃ entries, logged w' = (logged w ++ entries)%list.

(** A handler whose response is a function of the request alone and which
    is [quiet]. *)
Definition answering (h : echo.HandlerFunc) : Prop :=
  ∀ c, ∃ res, ∀ w, ∃ w', h c w = Returns res w' ∧ quiet w w'.

(** A world with nothing in it. *)
Definition bare : World := mkWorld ∅ None [] [] (λ _, true) (Some ErrServerClosed).

(** What [getEnv] yields, as a function of the environment. *)
Definition value_or (env : gmap string string) (key defaultValue : string) : string :=
  let value := default "" (env !! key) in
  if decide (value ≠ "") then value else defaultValue.

(** The world [godotenv.Load] leaves: the variables of [./.env] that were
    not set are now set. *)
Definition loaded (w : World) : World :=
  match dotenv_file w with
  | None => w
  | Some envMap => set_environ (environ w ∪ envMap) w
  end.

(** A world whose only source of [DB_URI] is the [.env] file. *)
Definition dotenv_only : World :=
  mkWorld ∅ (Some {[ "DB_URI" := "postgres://localhost/todo" ]}) [] []
          (λ _, true) (Some ErrServerClosed).

(** A world with an environment and no [.env] file. *)
Definition with_env (env : gmap string string) : World :=
  mkWorld env None [] [] (λ _, true) (Some ErrServerClosed).

(** A world where [PORT] is set to the empty string. *)
Definition empty_port : World :=
  with_env {[ "PORT" := ""; "DB_URI" := "mongodb://db" ]}.

(** A world where [APP_ENV] is in the [.env] file only. *)
Definition dotenv_app_env : World :=
  mkWorld {[ "DB_URI" := "mongodb://db" ]} (Some {[ "APP_ENV" := "staging" ]}) [] []
          (λ _, true) (Some ErrServerClosed).

(** A world where [PORT] names no port and the address [":abc"] cannot be
    listened on. *)
Definition bad_port : World :=
  mkWorld {[ "PORT" := "abc"; "DB_URI" := "mongodb://db" ]} None [] []
          (λ address, negb (String.eqb address ":abc")) None.

(** The members of a request object that [POST /users] can store: a
    member named after a field must hold a string or [null]; members
    with other names are skipped. *)
Definition storable (v : json) : bool :=
  match v with
  | JStr _ | JNull => true
  | _ => false
  end.

Definition well_typed (kv : string * json) : Prop :=
  (encoding_json.equalFold kv.1 "name" || encoding_json.equalFold kv.1 "email") = true →
  storable kv.2 = true.

(** One turn of the loop of [encoding_json.object] over the members of a
    signup request. *)
Definition assign (acc : q2_json_response.UserSignupRequest * error) (kv : string * json)
    : q2_json_response.UserSignupRequest * error :=
  let '(x', err) := q2_json_response.setField kv.1 kv.2 acc.1 in
  (x', encoding_json.saveError acc.2 err).

Definition signup (body : http.Payload) : http.Request :=
  http.mkRequest POST "/users" body.

(** The members of a request object that have an effect on a signup
    request: those named after a field and holding something other than
    [null]. *)
Definition counts (kv : string * json) : bool :=
  (encoding_json.equalFold kv.1 "name" || encoding_json.equalFold kv.1 "email")
  && match kv.2 with JNull => false | _ => true end.

(** The bodies, among those of [http.Payload], that [POST /users] takes
    for a signup request with nothing in it: no body at all, and the JSON
    text [null]. *)
Definition blank (body : http.Payload) : bool :=
  match body with
  | http.Empty | http.JSONText (Some JNull) => true
  | _ => false
  end.

(** What [POST /users] answers to a body it cannot bind. *)
Definition rejected : echo.Response :=
  echo.mkResponse 400 (echo.JSONDoc (JObj [("message", JStr "invalid request payload")])).

(** The methods and paths a server has routes for. *)
Definition table (e : echo.Echo) : list (Method * string) :=
  (λ rt, (echo.RouteMethod rt, echo.RoutePath rt)) <$> echo.routes e.

(** What the router answers by itself.  On a path it has routes for, under
    other methods: 204 without content to [OPTIONS], 405 to any other
    method.  On a path it has no route for: 404.  The errors 405 and 404
    come with a JSON message, but for [HEAD]. *)
Definition unrouted (e : echo.Echo) (r : http.Request) : echo.Response :=
  if decide (http.URLPath r ∈ (table e).*2 ∧ http.ReqMethod r = OPTIONS)
  then echo.mkResponse 204 echo.Nothing
  else
    let code := if decide (http.URLPath r ∈ (table e).*2) then 405 else 404 in
    echo.mkResponse code
      (if decide (http.ReqMethod r = HEAD) then echo.Nothing
       else echo.JSONDoc (JObj [("message", JStr (http.StatusText code))])).

(** The line the request logger writes for a request and its response. *)
Definition request_line (r : http.Request) (res : echo.Response) : LogEntry :=
  LogRequest (http.ReqMethod r) (http.URLPath r) (echo.Status res).

(** Whether a server was given a middleware; the only one these programs
    register is the request logger. *)
Definition logs (e : echo.Echo) : bool :=
  match echo.middleware e with
  | [] => false
  | _ :: _ => true
  end.

(** * Properties *)

(** ** Configuration *)
Section Config.
Import config.

Lemma getEnv_run key d w :
  getEnv key d w = Returns (value_or (environ w) key d) w.
Proof.
  unfold getEnv, value_or, mbind, Proc_bind, os.Getenv.
  by repeat case_decide.
Qed.

(** The loop of [loadFile] computes a union that prefers the variables
    already set. *)
Lemma loadFile_union envMap env :
  godotenv.loadFile envMap env = env ∪ envMap.
Proof.
  unfold godotenv.loadFile.
  apply (map_fold_weak_ind (λ r m, r = env ∪ m)).
  - by rewrite (right_id_L ∅ (∪)).
  - intros k v m r Hk ->. case_decide as Hin.
    + apply map_eq. intros j. rewrite !lookup_union.
      destruct (decide (k = j)) as [->|Hne].
      * rewrite lookup_insert_eq. destruct Hin as [x ->]. by destruct (m !! j).
      * by rewrite lookup_insert_ne.
    + apply insert_union_r. by apply eq_None_not_Some.
Qed.

Lemma Load_run w : ∃ err, godotenv.Load w = Returns err (loaded w).
Proof.
  unfold godotenv.Load, loaded. destruct (dotenv_file w); eauto.
  rewrite loadFile_union. eauto.
Qed.

Lemma LoadConfig_run w :
  let env := environ (loaded w) in
  LoadConfig w =
    if decide (value_or env "DB_URI" "" = "")
    then Exits 1 (add_log (LogFatal "DB_URI is required but not set") (loaded w))
    else Returns {| AppEnv := value_or env "APP_ENV" "development";
                    Port := value_or env "PORT" "8080";
                    DBURI := value_or env "DB_URI" "" |} (loaded w).
Proof.
  intros env. destruct (Load_run w) as [err Hload].
  unfold LoadConfig, mbind, Proc_bind. rewrite Hload, !getEnv_run. simpl.
  fold env. by destruct (decide (value_or env "DB_URI" "" = "")).
Qed.

End Config.

Section ConfigClaims.
Import config.

(** C5, as stated, fails twice.  The default does not wait for the
    variable to be absent: with [PORT] set to the empty string the port is
    ["8080"], not the value of [PORT].  And the environment that counts is
    not the one [LoadConfig] is called in: with [APP_ENV] absent from it
    and given in the [.env] file, [AppEnv] is the file's value, not
    ["development"]. *)
Lemma LoadConfig_default_not_only_when_absent :
  (environ empty_port !! "PORT" = Some "" ∧
   ∃ cfg, LoadConfig empty_port = Returns cfg empty_port ∧
          environ empty_port !! "PORT" ≠ Some (Port cfg) ∧ Port cfg = "8080") ∧
  (environ dotenv_app_env !! "APP_ENV" = None ∧
   ∃ cfg w', LoadConfig dotenv_app_env = Returns cfg w' ∧
             AppEnv cfg ≠ "development" ∧ AppEnv cfg = "staging").
Proof.
  split.
  - split; [reflexivity|]. eexists. split; [vm_compute; reflexivity|]. by split.
  - split; [reflexivity|]. eexists _, _. split; [vm_compute; reflexivity|]. by split.
Qed.

(** C5, amended.  When [LoadConfig] returns, [AppEnv] is the value of
    [APP_ENV] in the environment, or ["development"] when [APP_ENV] is
    absent or empty; [Port] is the value of [PORT], or ["8080"] when
    [PORT] is absent or empty; [DBURI] is the value of [DB_URI], which is
    set and not empty: no default stands in for it.  The environment is
    the one in force when [LoadConfig] returns, which is the one it was
    called in with the variables of [./.env] that were not set. *)
Theorem LoadConfig_defaults (w w' : World) (cfg : Config) :
  LoadConfig w = Returns cfg w' →
  let env := environ w' in
  w' = loaded w ∧
  (AppEnv cfg = match env !! "APP_ENV" with
                | Some v => if decide (v = "") then "development" else v
                | None => "development"
                end) ∧
  (Port cfg = match env !! "PORT" with
              | Some v => if decide (v = "") then "8080" else v
              | None => "8080"
              end) ∧
  env !! "DB_URI" = Some (DBURI cfg) ∧ DBURI cfg ≠ "".
Proof.
  rewrite LoadConfig_run. simpl. case_decide as Hdb; [done|].
  intros [= <- <-]. simpl. unfold value_or in *.
  repeat split.
  - destruct (environ (loaded w) !! "APP_ENV") as [v|]; simpl; [|done].
    by repeat case_decide.
  - destruct (environ (loaded w) !! "PORT") as [v|]; simpl; [|done].
    by repeat case_decide.
  - destruct (environ (loaded w) !! "DB_URI") as [v|]; simpl in *; [|done].
    by repeat case_decide.
  - done.
Qed.

Lemma LoadConfig_defaults_witness :
  let w := with_env {[ "DB_URI" := "mongodb://db"; "PORT" := "9090" ]} in
  let cfg := {| AppEnv := "development"; Port := "9090"; DBURI := "mongodb://db" |} in
  LoadConfig w = Returns cfg w ∧
  (w = loaded w ∧ AppEnv cfg = "development" ∧ Port cfg = "9090" ∧
   environ w !! "DB_URI" = Some "mongodb://db" ∧ DBURI cfg ≠ "").
Proof.
  intros w cfg. split; [vm_compute; reflexivity|].
  exact (LoadConfig_defaults w w cfg eq_refl).
Defined.

(** C4, as stated, fails: with [DB_URI] unset in the environment and a
    [.env] file that supplies it, [LoadConfig] returns a configuration
    and [main] goes on to bind its listener. *)
Lemma LoadConfig_dotenv_supplies_DB_URI :
  environ dotenv_only !! "DB_URI" = None ∧
  exit_code (LoadConfig dotenv_only) = None ∧
  (∃ w', LoadConfig dotenv_only =
           Returns {| AppEnv := "development"; Port := "8080";
                      DBURI := "postgres://localhost/todo" |} w') ∧
  listeners (world_of (todo_app.main dotenv_only)) = [":8080"].
Proof.
  split; [reflexivity|]. split; [vm_compute; reflexivity|].
  split; [eexists; vm_compute; reflexivity | vm_compute; reflexivity].
Qed.

(** C4, amended.  If [DB_URI] is unset in the environment when
    [LoadConfig] runs and the [.env] file, if there is one, supplies no
    non-empty [DB_URI] either, then [LoadConfig] ends the process with
    exit status 1, and so does [main], with no listener bound: the
    listeners are those there were before. *)
Theorem LoadConfig_requires_DB_URI (w : World) :
  environ w !! "DB_URI" = None →
  (∀ envMap, dotenv_file w = Some envMap → default "" (envMap !! "DB_URI") = "") →
  ∃ w', LoadConfig w = Exits 1 w' ∧
        todo_app.main w = Exits 1 w' ∧
        listeners w' = listeners w.
Proof.
  intros Henv Hfile.
  assert (value_or (environ (loaded w)) "DB_URI" "" = "") as Hdb.
  { unfold value_or, loaded. destruct (dotenv_file w) as [envMap|] eqn:Hf; simpl.
    - rewrite lookup_union_r by done. rewrite (Hfile envMap eq_refl).
      by repeat case_decide.
    - rewrite Henv. simpl. by repeat case_decide. }
  eexists. split; [|split].
  - rewrite LoadConfig_run. simpl. rewrite decide_True by done. reflexivity.
  - unfold todo_app.main, mbind, Proc_bind. rewrite LoadConfig_run. simpl.
    rewrite decide_True by done. reflexivity.
  - simpl. unfold loaded. by destruct (dotenv_file w).
Qed.

Lemma LoadConfig_requires_DB_URI_witness :
  let w := with_env {[ "PORT" := "9090" ]} in
  environ w !! "DB_URI" = None ∧
  (∀ envMap, dotenv_file w = Some envMap → default "" (envMap !! "DB_URI") = "") ∧
  ∃ w', LoadConfig w = Exits 1 w' ∧
        todo_app.main w = Exits 1 w' ∧
        listeners w' = listeners w.
Proof.
  intros w.
  assert (environ w !! "DB_URI" = None) as H1 by reflexivity.
  assert (∀ envMap, dotenv_file w = Some envMap →
                    default "" (envMap !! "DB_URI") = "") as H2
    by (intros envMap Hf; discriminate Hf).
  exact (conj H1 (conj H2 (LoadConfig_requires_DB_URI w H1 H2))).
Defined.

(** C10.  [getEnv] treats a variable set to the empty string like one
    that is not set: either way it yields the default.  So an empty
    [PORT] gives the port ["8080"], and an empty [DB_URI] makes
    [LoadConfig] end the process with status 1. *)
Theorem getEnv_empty_is_unset (w : World) (key defaultValue : string) :
  environ w !! key = Some "" ∨ environ w !! key = None →
  getEnv key defaultValue w = Returns defaultValue w ∧
  (environ w !! key = Some "" → key = "PORT" →
     ∀ cfg w', LoadConfig w = Returns cfg w' → Port cfg = "8080") ∧
  (environ w !! key = Some "" → key = "DB_URI" →
     ∃ w', LoadConfig w = Exits 1 w').
Proof.
  intros Hkey.
  assert (∀ d, value_or (environ w) key d = d) as Hval.
  { intros d. unfold value_or. destruct Hkey as [-> | ->]; simpl; by repeat case_decide. }
  assert (environ w !! key = Some "" → ∀ d, value_or (environ (loaded w)) key d = d)
    as Hloaded.
  { intros Hset d. unfold value_or, loaded.
    destruct (dotenv_file w) as [envMap|]; simpl.
    - rewrite (lookup_union_l' _ _ _ (mk_is_Some _ _ Hset)), Hset. simpl. by repeat case_decide.
    - rewrite Hset. simpl. by repeat case_decide. }
  split; [|split].
  - by rewrite getEnv_run, Hval.
  - intros Hset -> cfg w'. rewrite LoadConfig_run. simpl.
    case_decide; [done|]. intros [= <- _]. simpl. by apply Hloaded.
  - intros Hset ->. rewrite LoadConfig_run. simpl.
    rewrite decide_True by by apply Hloaded. eauto.
Qed.

Lemma getEnv_empty_is_unset_witness :
  let w := mkWorld {[ "PORT" := ""; "DB_URI" := "mongodb://db" ]}
                   (Some {[ "PORT" := "9090" ]}) [] []
                   (λ _, true) (Some ErrServerClosed) in
  (environ w !! "PORT" = Some "" ∨ environ w !! "PORT" = None) ∧
  getEnv "PORT" "8080" w = Returns "8080" w ∧
  ∃ cfg w', LoadConfig w = Returns cfg w' ∧ Port cfg = "8080".
Proof.
  intros w.
  assert (environ w !! "PORT" = Some "") as Hset by reflexivity.
  destruct (getEnv_empty_is_unset w "PORT" "8080" (or_introl Hset))
    as (Hget & Hport & _).
  split; [by left|]. split; [exact Hget|].
  assert (LoadConfig w = Returns {| AppEnv := "development"; Port := "8080";
                                    DBURI := "mongodb://db" |} (loaded w)) as Hrun
    by (vm_compute; reflexivity).
  exact (ex_intro _ _ (ex_intro _ _ (conj Hrun (Hport Hset eq_refl _ _ Hrun)))).
Defined.

End ConfigClaims.

(** ** The JSON server *)
Section JSONResponse.
Import encoding_json q2_json_response.

(** What the router runs for [POST /users]. *)
Lemma ServeHTTP_post_users (r : http.Request) (w : World) :
  http.ReqMethod r = POST → http.URLPath r = "/users" →
  echo.ServeHTTP e r w =
    match echo.Bind (echo.mkContext r) zero with
    | (_, Some _) =>
        Returns (echo.mkResponse 400
                   (echo.JSONDoc (JObj [("message", JStr "invalid request payload")]))) w
    | (userReq, None) =>
        Returns (echo.mkResponse 200 (echo.JSONDoc (Marshal userReq))) w
    end.
Proof.
  destruct r as [m p b]. simpl. intros -> ->.
  change (echo.ServeHTTP e _ w)
    with (POST_users (echo.mkContext (http.mkRequest POST "/users" b)) w).
  unfold POST_users.
  destruct (echo.Bind _ _) as [u [err|]]; [vm_compute|]; reflexivity.
Qed.

(** C1.  When the body of a [POST /users] request binds to a signup
    request [u] without error, the response has status 200 and its JSON
    body holds the fields of [u] as they were decoded: the [name] member,
    left out when the name is empty, then the [email] member. *)
Theorem post_users_echoes (r : http.Request) (u : UserSignupRequest) (w : World) :
  http.ReqMethod r = POST → http.URLPath r = "/users" →
  echo.Bind (echo.mkContext r) zero = (u, None) →
  echo.ServeHTTP e r w =
    Returns (echo.mkResponse 200
               (echo.JSONDoc
                  (JObj ((if decide (Name u = "") then [] else [("name", JStr (Name u))])
                         ++ [("email", JStr (Email u))])))) w.
Proof.
  intros Hm Hp Hbind. rewrite ServeHTTP_post_users, Hbind by done. reflexivity.
Qed.

Lemma post_users_echoes_witness :
  let r := signup (http.JSONText (Some (JObj [("email", JStr "a@b.com")]))) in
  let u := {| Name := ""; Email := "a@b.com" |} in
  echo.Bind (echo.mkContext r) zero = (u, None) ∧
  echo.ServeHTTP e r bare =
    Returns (echo.mkResponse 200 (echo.JSONDoc (JObj [("email", JStr "a@b.com")]))) bare.
Proof.
  intros r u. split; [reflexivity|].
  exact (post_users_echoes r u bare eq_refl eq_refl eq_refl).
Defined.

(** C2.  A [POST /users] request always gets a response.  When the body
    fails to bind, the response has status 400 and the JSON body
    [{"message":"invalid request payload"}]; and a status other than 200
    is that response and comes from a body that failed to bind. *)
Theorem post_users_rejects (r : http.Request) (w : World) :
  http.ReqMethod r = POST → http.URLPath r = "/users" →
  ∃ res, echo.ServeHTTP e r w = Returns res w ∧
    let rejected :=
      echo.mkResponse 400
        (echo.JSONDoc (JObj [("message", JStr "invalid request payload")])) in
    ((echo.Bind (echo.mkContext r) zero).2 ≠ None → res = rejected) ∧
    (echo.Status res ≠ 200 →
       res = rejected ∧ (echo.Bind (echo.mkContext r) zero).2 ≠ None).
Proof.
  intros Hm Hp. rewrite ServeHTTP_post_users by done.
  destruct (echo.Bind _ _) as [u [err|]]; eexists; (split; [reflexivity|]); simpl.
  - by split.
  - split; [done|]. intros Hst. by destruct Hst.
Qed.

Lemma post_users_rejects_witness :
  let r := signup (http.JSONText None) in
  (echo.Bind (echo.mkContext r) zero).2 ≠ None ∧
  echo.ServeHTTP e r bare =
    Returns (echo.mkResponse 400
               (echo.JSONDoc (JObj [("message", JStr "invalid request payload")]))) bare.
Proof.
  intros r.
  assert ((echo.Bind (echo.mkContext r) zero).2 ≠ None) as Hfail by discriminate.
  split; [exact Hfail|].
  destruct (post_users_rejects r bare eq_refl eq_refl) as (res & Hrun & Hrej & _).
  rewrite Hrun. f_equal. exact (Hrej Hfail).
Defined.

(** *** What the binder accepts *)

Lemma setField_error key v u :
  (setField key v u).2 = None ↔ well_typed (key, v).
Proof.
  unfold setField, well_typed, storeString. simpl.
  destruct (equalFold key "name"); [|destruct (equalFold key "email")];
    destruct v; simpl; split; try done; intros H; by specialize (H eq_refl).
Qed.

Lemma setField_keeps_Email key v u :
  equalFold key "email" = false → Email (setField key v u).1 = Email u.
Proof.
  unfold setField. intros ->.
  destruct (equalFold key "name"); [|done]. by destruct (storeString _ _ _).
Qed.

Lemma setField_keeps_Name key v u :
  equalFold key "name" = false → Name (setField key v u).1 = Name u.
Proof.
  unfold setField. intros ->.
  destruct (equalFold key "email"); [|done]. by destruct (storeString _ _ _).
Qed.

Lemma assign_error members acc :
  (foldl assign acc members).2 = None ↔ acc.2 = None ∧ Forall well_typed members.
Proof.
  revert acc. induction members as [|[k v] ms IH]; intros [u err]; simpl.
  - split; [intros ->; by split | by intros [-> _]].
  - rewrite IH, Forall_cons, <- (setField_error k v u).
    unfold assign. simpl. destruct (setField k v u) as [u' err']. simpl.
    destruct err; simpl; [|tauto].
    split; by intros [? _].
Qed.

Lemma assign_keeps_Email members acc :
  Forall (λ kv, equalFold kv.1 "email" = false) members →
  Email (foldl assign acc members).1 = Email acc.1.
Proof.
  revert acc. induction members as [|[k v] ms IH]; intros [u err]; simpl; [done|].
  rewrite Forall_cons. intros [Hk Hms]. rewrite IH by done.
  unfold assign. simpl. pose proof (setField_keeps_Email k v u Hk) as H.
  by destruct (setField k v u).
Qed.

Lemma assign_keeps_Name members acc :
  Forall (λ kv, equalFold kv.1 "name" = false) members →
  Name (foldl assign acc members).1 = Name acc.1.
Proof.
  revert acc. induction members as [|[k v] ms IH]; intros [u err]; simpl; [done|].
  rewrite Forall_cons. intros [Hk Hms]. rewrite IH by done.
  unfold assign. simpl. pose proof (setField_keeps_Name k v u Hk) as H.
  by destruct (setField k v u).
Qed.

Lemma Bind_object members c :
  http.Body (echo.Request c) = http.JSONText (Some (JObj members)) →
  echo.Bind c zero = foldl assign (zero, None) members.
Proof.
  unfold echo.Bind, echo.BindBody. intros ->. reflexivity.
Qed.

(** The binder at work on a few bodies: a member of the wrong type is
    refused, the case of a key does not count, and a request without a
    body is accepted as it is. *)
Example post_users_number_email :
  echo.ServeHTTP e (signup (http.JSONText (Some (JObj [("email", JNum "5")])))) bare =
    Returns (echo.mkResponse 400
               (echo.JSONDoc (JObj [("message", JStr "invalid request payload")]))) bare.
Proof. vm_compute. reflexivity. Qed.

Example post_users_upper_case_key :
  echo.ServeHTTP e (signup (http.JSONText (Some (JObj [("EMAIL", JStr "a@b.com")])))) bare =
    Returns (echo.mkResponse 200 (echo.JSONDoc (JObj [("email", JStr "a@b.com")]))) bare.
Proof. vm_compute. reflexivity. Qed.

Example post_users_no_body :
  echo.ServeHTTP e (signup http.Empty) bare =
    Returns (echo.mkResponse 200 (echo.JSONDoc (JObj [("email", JStr "")]))) bare.
Proof. vm_compute. reflexivity. Qed.

(** C3, as stated, fails: a body that supplies a name and no email is
    accepted, and the email comes back empty. *)
Lemma post_users_accepts_missing_email :
  echo.ServeHTTP e (signup (http.JSONText (Some (JObj [("name", JStr "Ann")])))) bare =
    Returns (echo.mkResponse 200
               (echo.JSONDoc (JObj [("name", JStr "Ann"); ("email", JStr "")]))) bare.
Proof. vm_compute. reflexivity. Qed.

(** C3, amended.  Neither field of the signup request is required.  A
    [POST /users] request whose body is a JSON object is accepted, with
    status 200, exactly when each member named [name] or [email]
    (whatever the case of the letters) holds a string or [null]; the
    other members do not count.  The name may be absent, and so may the
    email: a field no member names is echoed as the empty string, which
    for the name means that the key is left out. *)
Theorem signup_fields_optional (r : http.Request) (members : list (string * json))
    (w : World) :
  http.ReqMethod r = POST → http.URLPath r = "/users" →
  http.Body r = http.JSONText (Some (JObj members)) →
  ∃ res, echo.ServeHTTP e r w = Returns res w ∧
    (echo.Status res = 200 ↔ Forall well_typed members) ∧
    (Forall well_typed members →
       ∃ u, res = echo.mkResponse 200 (echo.JSONDoc (Marshal u)) ∧
            (Forall (λ kv, equalFold kv.1 "email" = false) members → Email u = "") ∧
            (Forall (λ kv, equalFold kv.1 "name" = false) members → Name u = "")).
Proof.
  intros Hm Hp Hb. rewrite ServeHTTP_post_users by done.
  rewrite (Bind_object members) by done.
  pose proof (assign_error members (zero, None)) as Herr.
  pose proof (assign_keeps_Email members (zero, None)) as HEmail.
  pose proof (assign_keeps_Name members (zero, None)) as HName.
  destruct (foldl assign (zero, None) members) as [u [err|]]; simpl in *.
  - eexists. split; [reflexivity|]. simpl.
    assert (¬ Forall well_typed members) as Hbad
      by (intros Hok; discriminate (proj2 Herr (conj eq_refl Hok))).
    split; [split; [done | tauto] | tauto].
  - eexists. split; [reflexivity|]. simpl.
    assert (Forall well_typed members) as Hok by apply (proj1 Herr eq_refl).
    split; [done|].
    intros _. exists u. split; [done|]. split; [apply HEmail | apply HName].
Qed.

Lemma signup_fields_optional_witness :
  let members := [("NAME", JStr "Ann"); ("age", JNum "7")] in
  let r := signup (http.JSONText (Some (JObj members))) in
  Forall well_typed members ∧
  echo.ServeHTTP e r bare =
    Returns (echo.mkResponse 200
               (echo.JSONDoc (JObj [("name", JStr "Ann"); ("email", JStr "")]))) bare.
Proof.
  intros members r.
  assert (Forall well_typed members) as Hok.
  { repeat constructor; unfold well_typed; simpl; done. }
  split; [exact Hok|].
  destruct (signup_fields_optional r members bare eq_refl eq_refl eq_refl)
    as (res & Hrun & Hstatus & _).
  rewrite Hrun. vm_compute in Hrun. symmetry. exact Hrun.
Defined.

End JSONResponse.

(** ** The routes *)
Section Routes.
Import encoding_json.

(** C6.  On [GET /] the simple server answers with status 200 and the
    text ["Hello world"]; the server of the todo application answers with
    status 200 and a text that holds the environment name of its
    configuration, [AppEnv cfg], between ["Todo API running in "] and
    [" mode"]; its request logger then writes its line. *)
Theorem root_greets (r : http.Request) (w : World) (cfg : config.Config) :
  http.ReqMethod r = GET → http.URLPath r = "/" →
  echo.ServeHTTP q1_simple_server.e r w =
    Returns (echo.mkResponse 200 (echo.Text "Hello world")) w ∧
  echo.ServeHTTP (todo_app.routes cfg) r w =
    Returns (echo.mkResponse 200
               (echo.Text ("Todo API running in " +:+ config.AppEnv cfg +:+ " mode")))
            (add_log (LogRequest GET "/" 200) w).
Proof.
  destruct r as [m p b]. simpl. intros -> ->. split; reflexivity.
Qed.

Lemma root_greets_witness :
  let r := http.mkRequest GET "/" http.Empty in
  let cfg := config.mkConfig "production" "8080" "mongodb://db" in
  echo.ServeHTTP q1_simple_server.e r bare =
    Returns (echo.mkResponse 200 (echo.Text "Hello world")) bare ∧
  echo.ServeHTTP (todo_app.routes cfg) r bare =
    Returns (echo.mkResponse 200 (echo.Text "Todo API running in production mode"))
            (add_log (LogRequest GET "/" 200) bare).
Proof.
  intros r cfg. exact (root_greets r bare cfg eq_refl eq_refl).
Defined.

(** C7.  On [GET /user] the JSON server, in both its revisions, answers
    with status 200 and the JSON object [{"id":1,"name":"John"}]. *)
Theorem get_user_john (r : http.Request) (w : World) :
  http.ReqMethod r = GET → http.URLPath r = "/user" →
  let john := echo.mkResponse 200
                (echo.JSONDoc (JObj [("id", JNum "1"); ("name", JStr "John")])) in
  echo.ServeHTTP q2_json_response.e r w = Returns john w ∧
  echo.ServeHTTP json_response_get_only.e r w = Returns john w.
Proof.
  destruct r as [m p b]. simpl. intros -> ->. split.
  - change (echo.ServeHTTP q2_json_response.e _ w)
      with (q2_json_response.GET_user
              (echo.mkContext (http.mkRequest GET "/user" b)) w).
    vm_compute. reflexivity.
  - change (echo.ServeHTTP json_response_get_only.e _ w)
      with (q2_json_response.GET_user
              (echo.mkContext (http.mkRequest GET "/user" b)) w).
    vm_compute. reflexivity.
Qed.

Lemma get_user_john_witness :
  let r := http.mkRequest GET "/user" http.Empty in
  let john := echo.mkResponse 200
                (echo.JSONDoc (JObj [("id", JNum "1"); ("name", JStr "John")])) in
  echo.ServeHTTP q2_json_response.e r bare = Returns john bare ∧
  echo.ServeHTTP json_response_get_only.e r bare = Returns john bare.
Proof.
  intros r john. exact (get_user_john r bare eq_refl eq_refl).
Defined.

(** C8.  On [GET /users2] the JSON server, in both its revisions, answers
    with status 200 and the JSON object [{"id":2,"name":"john 2"}]. *)
Theorem get_users2_john2 (r : http.Request) (w : World) :
  http.ReqMethod r = GET → http.URLPath r = "/users2" →
  let john2 := echo.mkResponse 200
                 (echo.JSONDoc (JObj [("id", JNum "2"); ("name", JStr "john 2")])) in
  echo.ServeHTTP q2_json_response.e r w = Returns john2 w ∧
  echo.ServeHTTP json_response_get_only.e r w = Returns john2 w.
Proof.
  destruct r as [m p b]. simpl. intros -> ->. split.
  - change (echo.ServeHTTP q2_json_response.e _ w)
      with (q2_json_response.GET_users2
              (echo.mkContext (http.mkRequest GET "/users2" b)) w).
    vm_compute. reflexivity.
  - change (echo.ServeHTTP json_response_get_only.e _ w)
      with (q2_json_response.GET_users2
              (echo.mkContext (http.mkRequest GET "/users2" b)) w).
    vm_compute. reflexivity.
Qed.

Lemma get_users2_john2_witness :
  let r := http.mkRequest GET "/users2" (http.JSONText None) in
  let john2 := echo.mkResponse 200
                 (echo.JSONDoc (JObj [("id", JNum "2"); ("name", JStr "john 2")])) in
  echo.ServeHTTP q2_json_response.e r bare = Returns john2 bare ∧
  echo.ServeHTTP json_response_get_only.e r bare = Returns john2 bare.
Proof.
  intros r john2. exact (get_users2_john2 r bare eq_refl eq_refl).
Defined.

End Routes.

(** ** Requests do not meet *)
Section Stateless.
Import encoding_json.

Global Instance quiet_refl : Reflexive quiet.
Proof. intros w. repeat split. exists []. by rewrite app_nil_r. Qed.

Global Instance quiet_trans : Transitive quiet.
Proof.
  intros w1 w2 w3 (He1 & Hd1 & Hl1 & l1 & Hg1) (He2 & Hd2 & Hl2 & l2 & Hg2).
  repeat split; try congruence.
  exists (l1 ++ l2)%list. by rewrite Hg2, Hg1, app_assoc.
Qed.

Lemma stateless_answering h : stateless h → answering h.
Proof.
  intros Hh c. destruct (Hh c) as [res Hres]. exists res. intros w.
  exists w. by rewrite Hres.
Qed.

Lemma DefaultHTTPErrorHandler_stateless code :
  stateless (echo.DefaultHTTPErrorHandler code).
Proof.
  intros c. unfold echo.DefaultHTTPErrorHandler.
  case_decide; eexists; intros w; reflexivity.
Qed.

(** Whatever the router finds is as stateless as the handlers it was
    given. *)
Lemma Find_stateless method path e :
  Forall (λ r, stateless (echo.RouteHandler r)) (echo.routes e) →
  stateless (echo.Find method path e).
Proof.
  intros Hall. unfold echo.Find.
  destruct (List.find _ _) as [r|] eqn:Hfind.
  - apply find_some in Hfind as [Hin _].
    rewrite Forall_forall in Hall. apply Hall. by apply list_elem_of_In.
  - destruct (existsb _ _); [case_decide|];
      try apply DefaultHTTPErrorHandler_stateless.
    intros c. eexists. intros w. reflexivity.
Qed.

Lemma RequestLogger_answering h :
  answering h → answering (middleware.RequestLogger h).
Proof.
  intros Hh c. destruct (Hh c) as [res Hres]. exists res. intros w.
  destruct (Hres w) as (w' & Hrun & Hq).
  unfold middleware.RequestLogger, mbind, Proc_bind. rewrite Hrun. simpl.
  eexists. split; [reflexivity|].
  etrans; [exact Hq|]. repeat split. by eexists.
Qed.

Lemma GET_root_stateless : stateless q1_simple_server.GET_root.
Proof. intros c. eexists. intros w. reflexivity. Qed.

Lemma todo_GET_root_stateless cfg : stateless (todo_app.GET_root cfg).
Proof. intros c. eexists. intros w. reflexivity. Qed.

Lemma GET_users_stateless : stateless q2_json_response.GET_users.
Proof. intros c. eexists. intros w. reflexivity. Qed.

Lemma GET_user_stateless : stateless q2_json_response.GET_user.
Proof. intros c. eexists. intros w. reflexivity. Qed.

Lemma GET_users2_stateless : stateless q2_json_response.GET_users2.
Proof. intros c. eexists. intros w. reflexivity. Qed.

Lemma POST_users_stateless : stateless q2_json_response.POST_users.
Proof.
  intros c. unfold q2_json_response.POST_users.
  destruct (echo.Bind _ _) as [u [err|]]; eexists; intros w; reflexivity.
Qed.

Lemma handlers_stateless (p : Program) :
  Forall (λ r, stateless (echo.RouteHandler r)) (echo.routes (server p)).
Proof.
  destruct p; simpl; repeat constructor; simpl;
    auto using GET_root_stateless, todo_GET_root_stateless, GET_users_stateless,
               GET_user_stateless, GET_users2_stateless, POST_users_stateless.
Qed.

Lemma ServeHTTP_answers (p : Program) (r : http.Request) :
  ∃ res, ∀ w, ∃ w', echo.ServeHTTP (server p) r w = Returns res w' ∧ quiet w w'.
Proof.
  pose proof (Find_stateless (http.ReqMethod r) (http.URLPath r) (server p)
                (handlers_stateless p)) as Hfind.
  apply stateless_answering in Hfind.
  destruct p; try exact (Hfind (echo.mkContext r)).
  exact (RequestLogger_answering _ Hfind (echo.mkContext r)).
Qed.

(** C9.  Every handler the programs register is stateless: its response
    is a function of the request, and it hands the world back as it got
    it.  (The handler of the todo application is a closure over the
    configuration [main] loaded before it started the server; no request
    changes it.)  So when a server handles requests one after the other,
    each gets the response it would get alone, from whatever world, and
    all the requests together leave the world as it was but for the lines
    the request logger wrote. *)
Theorem requests_do_not_meet (p : Program) :
  Forall (λ rt, stateless (echo.RouteHandler rt)) (echo.routes (server p)) ∧
  ∀ (requests : list http.Request) (w : World),
    ∃ responses w',
      serve (server p) requests w = Returns responses w' ∧
      quiet w w' ∧
      Forall2 (λ r res, ∀ w0, ∃ w0', echo.ServeHTTP (server p) r w0 = Returns res w0')
              requests responses.
Proof.
  split; [apply handlers_stateless|].
  induction requests as [|r rs IH]; intros w.
  - exists [], w. split; [reflexivity|]. split; [reflexivity | constructor].
  - destruct (ServeHTTP_answers p r) as [res Hres].
    destruct (Hres w) as (w1 & Hrun & Hq1).
    destruct (IH w1) as (ress & w2 & Hrest & Hq2 & Hall).
    exists (res :: ress), w2. split; [|split].
    + unfold serve in *. simpl. unfold mbind, Proc_bind at 1.
      rewrite Hrun. unfold mbind, Proc_bind at 1. by rewrite Hrest.
    + by etrans.
    + constructor; [|done]. intros w0. destruct (Hres w0) as (w0' & ? & _). eauto.
Qed.

End Stateless.

(** ** More on the configuration *)
Section ConfigMore.
Import config.

Lemma value_or_nonempty env key d : d ≠ "" → value_or env key d ≠ "".
Proof. unfold value_or. intros Hd. by case_decide. Qed.

Lemma loaded_loaded w : loaded (loaded w) = loaded w.
Proof.
  unfold loaded. destruct (dotenv_file w) as [envMap|] eqn:Hf; simpl; [|by rewrite Hf].
  unfold set_environ. simpl. rewrite Hf. f_equal.
  by rewrite <- (assoc_L (∪)), (idemp_L (∪)).
Qed.

(** [LoadConfig] has two outcomes: it returns a configuration whose three
    fields are all non-empty, or it ends the process with status 1 after
    one [log.Fatal] line.  Which one depends on [DB_URI] alone, as the
    environment holds it once [.env] is loaded. *)
Theorem LoadConfig_outcomes (w : World) :
  let w1 := loaded w in
  let db := default "" (environ w1 !! "DB_URI") in
  (db ≠ "" ∧ ∃ cfg, LoadConfig w = Returns cfg w1 ∧
                    AppEnv cfg ≠ "" ∧ Port cfg ≠ "" ∧ DBURI cfg = db) ∨
  (db = "" ∧ LoadConfig w =
               Exits 1 (add_log (LogFatal "DB_URI is required but not set") w1)).
Proof.
  intros w1 db. rewrite LoadConfig_run. fold w1.
  assert (value_or (environ w1) "DB_URI" "" = db) as Hdb.
  { unfold value_or. fold db. by case_decide. }
  rewrite Hdb. case_decide as Hempty; [by right|]. left. split; [done|].
  eexists. split; [reflexivity|]. simpl.
  split; [by apply value_or_nonempty|]. split; [by apply value_or_nonempty|done].
Qed.

Lemma LoadConfig_outcomes_witness :
  let w := with_env {[ "DB_URI" := "mongodb://db" ]} in
  ∃ cfg, LoadConfig w = Returns cfg w ∧ AppEnv cfg ≠ "" ∧ Port cfg ≠ "".
Proof.
  intros w. destruct (LoadConfig_outcomes w) as [(_ & cfg & Hrun & Ha & Hp & _) | [Hdb _]].
  - exists cfg. by repeat split.
  - by vm_compute in Hdb.
Defined.

Lemma loaded_lookup_set w key v :
  environ w !! key = Some v → environ (loaded w) !! key = Some v.
Proof.
  intros Hk. unfold loaded. destruct (dotenv_file w); [|done]. simpl.
  by apply lookup_union_Some_l.
Qed.

Lemma loaded_lookup_unset w key envMap :
  environ w !! key = None → dotenv_file w = Some envMap →
  environ (loaded w) !! key = envMap !! key.
Proof.
  intros Hk Hf. unfold loaded. rewrite Hf. simpl. by apply lookup_union_r.
Qed.

Lemma value_or_set env key d v : env !! key = Some v → v ≠ "" → value_or env key d = v.
Proof. unfold value_or. intros -> Hv. simpl. by case_decide. Qed.

(** The process environment comes before the [.env] file.  For each of
    the three variables: a non-empty value in the environment is the one
    the configuration gets, whatever the file says; the file's value is
    used when the variable is not in the environment at all. *)
Theorem environment_before_dotenv (w w' : World) (cfg : Config) (key field : string) :
  LoadConfig w = Returns cfg w' →
  (key, field) ∈ [("APP_ENV", AppEnv cfg); ("PORT", Port cfg); ("DB_URI", DBURI cfg)] →
  (∀ v, environ w !! key = Some v → v ≠ "" → field = v) ∧
  (∀ envMap v, environ w !! key = None → dotenv_file w = Some envMap →
               envMap !! key = Some v → v ≠ "" → field = v).
Proof.
  rewrite LoadConfig_run. simpl. case_decide; [done|]. intros [= <- _]. simpl.
  rewrite !elem_of_cons, elem_of_nil.
  intros [[= -> ->] | [[= -> ->] | [[= -> ->] | []]]]; split.
  all: try (intros v Hv Hne; apply value_or_set; [by apply loaded_lookup_set | done]).
  all: intros envMap v Hk Hf Hv Hne; apply value_or_set; [|done];
       by rewrite (loaded_lookup_unset _ _ envMap).
Qed.

Lemma environment_before_dotenv_witness :
  let w := mkWorld {[ "PORT" := "9090"; "DB_URI" := "mongodb://db" ]}
                   (Some {[ "PORT" := "7000"; "APP_ENV" := "staging" ]}) [] []
                   (λ _, true) (Some ErrServerClosed) in
  let cfg := {| AppEnv := "staging"; Port := "9090"; DBURI := "mongodb://db" |} in
  LoadConfig w = Returns cfg (loaded w) ∧ Port cfg = "9090" ∧ AppEnv cfg = "staging".
Proof.
  intros w cfg.
  assert (LoadConfig w = Returns cfg (loaded w)) as Hrun by (vm_compute; reflexivity).
  split; [exact Hrun|]. split.
  - refine (proj1 (environment_before_dotenv w _ cfg "PORT" (Port cfg) Hrun _) "9090" _ _).
    + repeat constructor.
    + reflexivity.
    + discriminate.
  - refine (proj2 (environment_before_dotenv w _ cfg "APP_ENV" (AppEnv cfg) Hrun _)
              {[ "PORT" := "7000"; "APP_ENV" := "staging" ]} "staging" _ _ _ _).
    + repeat constructor.
    + reflexivity.
    + reflexivity.
    + reflexivity.
    + discriminate.
Defined.

(** Loading the configuration a second time changes nothing: from the
    world the first call left, [LoadConfig] returns the same configuration
    and leaves the same world. *)
Theorem LoadConfig_twice (w w' : World) (cfg : Config) :
  LoadConfig w = Returns cfg w' → LoadConfig w' = Returns cfg w'.
Proof.
  rewrite LoadConfig_run. simpl. case_decide as Hdb; [done|]. intros [= <- <-].
  rewrite LoadConfig_run. simpl. rewrite loaded_loaded. by rewrite decide_False.
Qed.

Lemma LoadConfig_twice_witness :
  let cfg := {| AppEnv := "development"; Port := "8080";
                DBURI := "postgres://localhost/todo" |} in
  LoadConfig dotenv_only = Returns cfg (loaded dotenv_only) ∧
  LoadConfig (loaded dotenv_only) = Returns cfg (loaded dotenv_only).
Proof.
  intros cfg.
  assert (LoadConfig dotenv_only = Returns cfg (loaded dotenv_only)) as Hrun
    by (vm_compute; reflexivity).
  exact (conj Hrun (LoadConfig_twice _ _ _ Hrun)).
Defined.

(** Whatever its outcome, [LoadConfig] takes nothing away: every variable
    of the environment keeps its value, a variable that is new comes from
    the [.env] file, the file is as it was and no listener is bound. *)
Theorem LoadConfig_keeps_environment (w : World) :
  let w' := world_of (LoadConfig w) in
  environ w ⊆ environ w' ∧
  (∀ key v, environ w' !! key = Some v → environ w !! key = None →
            ∃ envMap, dotenv_file w = Some envMap ∧ envMap !! key = Some v) ∧
  dotenv_file w' = dotenv_file w ∧
  listeners w' = listeners w.
Proof.
  assert (world_of (LoadConfig w) = loaded w ∨
          world_of (LoadConfig w) =
            add_log (LogFatal "DB_URI is required but not set") (loaded w)) as Hw.
  { rewrite LoadConfig_run. simpl. case_decide; auto. }
  assert (environ (world_of (LoadConfig w)) = environ (loaded w) ∧
          dotenv_file (world_of (LoadConfig w)) = dotenv_file (loaded w) ∧
          listeners (world_of (LoadConfig w)) = listeners (loaded w)) as (He & Hd & Hl)
    by (destruct Hw as [-> | ->]; done).
  simpl. rewrite He, Hd, Hl. unfold loaded.
  destruct (dotenv_file w) as [envMap|] eqn:Hf; simpl.
  - split; [apply map_union_subseteq_l|]. split; [|done].
    intros key v Hk Hnone. exists envMap. split; [done|].
    by rewrite lookup_union_r in Hk.
  - split; [done|]. split; [|done]. intros key v Hk Hnone. congruence.
Qed.

Lemma loaded_surroundings w :
  listeners (loaded w) = listeners w ∧ logged (loaded w) = logged w ∧
  can_listen (loaded w) = can_listen w ∧ stopped (loaded w) = stopped w.
Proof. unfold loaded. by destruct (dotenv_file w). Qed.

(** [main] of the todo application, when the configuration loads: it
    starts the server once, on [":"] followed by the configured port,
    which is [":8080"] when [PORT] is not set.  When the process can
    listen on that address, it is the one listener [main] adds.  When it
    cannot, nothing is bound and the failure is logged.  Either way [main]
    returns, and the environment is the one [LoadConfig] left. *)
Theorem todo_main_listens (w w1 : World) (cfg : Config) :
  LoadConfig w = Returns cfg w1 →
  let address := ":" +:+ Port cfg in
  (environ w1 !! "PORT" = None → address = ":8080") ∧
  ∃ w2, todo_app.main w = Returns tt w2 ∧
        environ w2 = environ w1 ∧
        if can_listen w address
        then listeners w2 = (listeners w ++ [address])%list
        else listeners w2 = listeners w ∧
             logged w2 = (logged w ++ [LogServerError "failed to start server"
                                                      (Some ErrListen)])%list.
Proof.
  intros Hrun address. pose proof Hrun as Hcfg. revert Hcfg.
  rewrite LoadConfig_run. simpl. case_decide; [done|]. intros [= Hc <-].
  destruct (loaded_surroundings w) as (Hl & Hg & Hcan & Hstop).
  split.
  { intros Hport. unfold address. rewrite <- Hc. simpl. unfold value_or. by rewrite Hport. }
  unfold todo_app.main, mbind, Proc_bind. rewrite Hrun. simpl.
  unfold echo.Start. fold address. rewrite Hcan.
  destruct (can_listen w address).
  - destruct (stopped (loaded w)); eexists; (split; [reflexivity|]); simpl;
      by rewrite Hl.
  - eexists. split; [reflexivity|]. simpl. by rewrite Hl, Hg.
Qed.

Lemma todo_main_listens_witness :
  LoadConfig bad_port =
    Returns {| AppEnv := "development"; Port := "abc"; DBURI := "mongodb://db" |} bad_port ∧
  ∃ w2, todo_app.main bad_port = Returns tt w2 ∧
        listeners w2 = [] ∧
        logged w2 = [LogServerError "failed to start server" (Some ErrListen)].
Proof.
  assert (LoadConfig bad_port =
            Returns {| AppEnv := "development"; Port := "abc"; DBURI := "mongodb://db" |}
                    bad_port) as Hrun
    by (vm_compute; reflexivity).
  split; [exact Hrun|].
  destruct (todo_main_listens _ _ _ Hrun) as (_ & w2 & Hmain & _ & Hl & Hg).
  exists w2. split; [exact Hmain|]. split; [exact Hl | exact Hg].
Defined.

End ConfigMore.

(** ** More on the JSON server *)
Section JSONResponseMore.
Import encoding_json q2_json_response.

(** On [GET /users] the JSON server, in both its revisions, answers with
    status 200 and the JSON object [{"id":1,"name":"john"}], whatever else
    the request holds. *)
Theorem get_users_john (r : http.Request) (w : World) :
  http.ReqMethod r = GET → http.URLPath r = "/users" →
  let john := echo.mkResponse 200
                (echo.JSONDoc (JObj [("id", JNum "1"); ("name", JStr "john")])) in
  echo.ServeHTTP q2_json_response.e r w = Returns john w ∧
  echo.ServeHTTP json_response_get_only.e r w = Returns john w.
Proof.
  destruct r as [m p b]. simpl. intros -> ->. split.
  - change (echo.ServeHTTP q2_json_response.e _ w)
      with (GET_users (echo.mkContext (http.mkRequest GET "/users" b)) w).
    vm_compute. reflexivity.
  - change (echo.ServeHTTP json_response_get_only.e _ w)
      with (GET_users (echo.mkContext (http.mkRequest GET "/users" b)) w).
    vm_compute. reflexivity.
Qed.

Lemma get_users_john_witness :
  let r := http.mkRequest GET "/users" (http.JSONText (Some (JArr []))) in
  let john := echo.mkResponse 200
                (echo.JSONDoc (JObj [("id", JNum "1"); ("name", JStr "john")])) in
  echo.ServeHTTP q2_json_response.e r bare = Returns john bare ∧
  echo.ServeHTTP json_response_get_only.e r bare = Returns john bare.
Proof.
  intros r john. exact (get_users_john r bare eq_refl eq_refl).
Defined.

Lemma ServeHTTP_signup (body : http.Payload) (w : World) :
  echo.ServeHTTP e (signup body) w =
    match echo.Bind (echo.mkContext (signup body)) zero with
    | (_, Some _) => Returns rejected w
    | (userReq, None) =>
        Returns (echo.mkResponse 200 (echo.JSONDoc (Marshal userReq))) w
    end.
Proof. by apply ServeHTTP_post_users. Qed.

Lemma Bind_signup_object members :
  echo.Bind (echo.mkContext (signup (http.JSONText (Some (JObj members))))) zero
  = foldl assign (zero, None) members.
Proof. by apply Bind_object. Qed.

(** Bodies other than JSON objects (bodies sent as XML or as a form are
    not covered).  A request without a body is accepted, and the response
    is the signup request with nothing in it, [{"email":""}].  A body sent
    as JSON that is not an object is accepted when it is the text [null],
    with that same response, and answered 400 otherwise: invalid JSON, a
    string, a number, a boolean, an array.  A body of a media type the
    binder does not know is answered 400. *)
Theorem post_users_without_object (v : option json) (w : World) :
  (∀ members, v ≠ Some (JObj members)) →
  let nothing := echo.mkResponse 200 (echo.JSONDoc (JObj [("email", JStr "")])) in
  echo.ServeHTTP e (signup (http.JSONText v)) w =
    Returns (if blank (http.JSONText v) then nothing else rejected) w ∧
  echo.ServeHTTP e (signup http.Empty) w = Returns nothing w ∧
  echo.ServeHTTP e (signup http.Unsupported) w = Returns rejected w.
Proof.
  intros Hobj nothing. rewrite !ServeHTTP_signup. repeat split.
  destruct v as [v|]; [|reflexivity].
  destruct v; try reflexivity. by destruct (Hobj members).
Qed.

Lemma post_users_without_object_witness :
  echo.ServeHTTP e (signup (http.JSONText (Some (JStr "a@b.com")))) bare =
    Returns rejected bare ∧
  echo.ServeHTTP e (signup (http.JSONText (Some JNull))) bare =
    Returns (echo.mkResponse 200 (echo.JSONDoc (JObj [("email", JStr "")]))) bare.
Proof.
  split.
  - refine (proj1 (post_users_without_object (Some (JStr "a@b.com")) bare _)).
    intros members. discriminate.
  - refine (proj1 (post_users_without_object (Some JNull) bare _)).
    intros members. discriminate.
Defined.

Lemma assign_skips kv acc : counts kv = false → assign acc kv = acc.
Proof.
  destruct kv as [k v], acc as [[n em] err]. unfold counts, assign, setField. simpl.
  destruct (equalFold k "name"); [|destruct (equalFold k "email")]; simpl.
  - destruct v; try done. intros _. by destruct err.
  - destruct v; try done. intros _. by destruct err.
  - intros _. by destruct err.
Qed.

Lemma foldl_assign_filter members acc :
  foldl assign acc members = foldl assign acc (List.filter counts members).
Proof.
  revert acc. induction members as [|kv ms IH]; intros acc; simpl; [done|].
  destruct (counts kv) eqn:Hc; simpl; [apply IH|].
  rewrite assign_skips by done. apply IH.
Qed.

(** Members that name neither field, and members that hold [null], have
    no effect: the response to an object is the response to the object
    without them. *)
Theorem post_users_ignores_members (members : list (string * json)) (w : World) :
  echo.ServeHTTP e (signup (http.JSONText (Some (JObj members)))) w =
  echo.ServeHTTP e (signup (http.JSONText (Some (JObj (List.filter counts members))))) w.
Proof.
  rewrite !ServeHTTP_signup, !Bind_signup_object.
  by rewrite <- foldl_assign_filter.
Qed.

(** Whether an object is accepted does not depend on the order of its
    members: two objects with the same members get the same status. *)
Theorem post_users_any_order (members members' : list (string * json)) (w : World) :
  members ≡ₚ members' →
  ∃ res res',
    echo.ServeHTTP e (signup (http.JSONText (Some (JObj members)))) w = Returns res w ∧
    echo.ServeHTTP e (signup (http.JSONText (Some (JObj members')))) w = Returns res' w ∧
    echo.Status res = echo.Status res'.
Proof.
  intros Hperm. rewrite !ServeHTTP_signup, !Bind_signup_object.
  pose proof (assign_error members (zero, None)) as H1.
  pose proof (assign_error members' (zero, None)) as H2.
  assert (Forall well_typed members ↔ Forall well_typed members') as Hall
    by (split; apply Forall_Permutation; done).
  destruct (foldl assign (zero, None) members) as [u [err|]],
           (foldl assign (zero, None) members') as [u' [err'|]];
    simpl in *; eexists _, _; (split; [reflexivity|]); (split; [reflexivity|]);
    simpl; try done.
  - destruct (proj1 H2 eq_refl) as [_ Hok%Hall]. discriminate (proj2 H1 (conj eq_refl Hok)).
  - destruct (proj1 H1 eq_refl) as [_ Hok%Hall]. discriminate (proj2 H2 (conj eq_refl Hok)).
Qed.

Lemma post_users_any_order_witness :
  ∃ res res',
    echo.ServeHTTP e (signup (http.JSONText (Some
      (JObj [("email", JStr "a@b.com"); ("name", JNum "7")])))) bare = Returns res bare ∧
    echo.ServeHTTP e (signup (http.JSONText (Some
      (JObj [("name", JNum "7"); ("email", JStr "a@b.com")])))) bare = Returns res' bare ∧
    echo.Status res = echo.Status res'.
Proof.
  apply post_users_any_order. apply perm_swap.
Defined.

Lemma equalFold_length s t : equalFold s t = true → String.length s = String.length t.
Proof.
  revert t. induction s as [|a s IH]; intros [|b t]; simpl; try done.
  intros [_ H]%andb_prop. f_equal. by apply IH.
Qed.

Lemma email_is_not_name key : equalFold key "email" = true → equalFold key "name" = false.
Proof.
  intros He%equalFold_length. destruct (equalFold key "name") eqn:Hn; [|done].
  apply equalFold_length in Hn. rewrite He in Hn. discriminate.
Qed.

(** When members name a field more than once, the last one decides: a
    string member added at the end of an accepted object sets its field,
    whatever the case of its key and whatever the members before it held
    there, and leaves the other field alone. *)
Theorem post_users_last_member (members : list (string * json)) (key s : string)
    (u : UserSignupRequest) (w : World) :
  echo.Bind (echo.mkContext (signup (http.JSONText (Some (JObj members))))) zero
    = (u, None) →
  let after := signup (http.JSONText (Some (JObj (members ++ [(key, JStr s)])))) in
  (equalFold key "email" = true →
     echo.ServeHTTP e after w =
       Returns (echo.mkResponse 200
                  (echo.JSONDoc (Marshal {| Name := Name u; Email := s |}))) w) ∧
  (equalFold key "name" = true →
     echo.ServeHTTP e after w =
       Returns (echo.mkResponse 200
                  (echo.JSONDoc (Marshal {| Name := s; Email := Email u |}))) w).
Proof.
  rewrite Bind_signup_object. intros Hu after. unfold after.
  rewrite ServeHTTP_signup, Bind_signup_object, foldl_app, Hu. simpl.
  unfold assign, setField. simpl. split.
  - intros He. by rewrite (email_is_not_name key He), He.
  - by intros ->.
Qed.

Lemma post_users_last_member_witness :
  let members := [("email", JStr "old@b.com"); ("name", JStr "Ann")] in
  echo.ServeHTTP e
    (signup (http.JSONText (Some (JObj (members ++ [("Email", JStr "new@b.com")]))))) bare =
    Returns (echo.mkResponse 200
               (echo.JSONDoc (JObj [("name", JStr "Ann"); ("email", JStr "new@b.com")])))
            bare.
Proof.
  intros members.
  exact (proj1 (post_users_last_member members "Email" "new@b.com"
                  {| Name := "Ann"; Email := "old@b.com" |} bare eq_refl) eq_refl).
Defined.

Lemma Bind_Marshal (u : UserSignupRequest) :
  echo.Bind (echo.mkContext (signup (http.JSONText (Some (Marshal u))))) zero = (u, None).
Proof.
  destruct u as [n em]. unfold Marshal, UserSignupRequest_Marshaler, omitempty. simpl.
  case_decide as Hn; [subst n|]; reflexivity.
Qed.

(** The echo is a round trip: the JSON body of a 200 response, sent back
    to [POST /users], binds to the signup request it was written from and
    is answered with that same response. *)
Theorem post_users_round_trip (r : http.Request) (u : UserSignupRequest) (w : World) :
  http.ReqMethod r = POST → http.URLPath r = "/users" →
  echo.Bind (echo.mkContext r) zero = (u, None) →
  let again := signup (http.JSONText (Some (Marshal u))) in
  echo.ServeHTTP e r w = Returns (echo.mkResponse 200 (echo.JSONDoc (Marshal u))) w ∧
  echo.Bind (echo.mkContext again) zero = (u, None) ∧
  echo.ServeHTTP e again w = echo.ServeHTTP e r w.
Proof.
  intros Hm Hp Hu again. unfold again.
  rewrite ServeHTTP_signup, Bind_Marshal, (ServeHTTP_post_users r) by done.
  by rewrite Hu.
Qed.

Lemma post_users_round_trip_witness :
  let r := signup (http.JSONText (Some (JObj [("EMAIL", JStr "a@b.com"); ("age", JNum "7")]))) in
  let again := signup (http.JSONText (Some (JObj [("email", JStr "a@b.com")]))) in
  echo.ServeHTTP e again bare = echo.ServeHTTP e r bare.
Proof.
  intros r again.
  exact (proj2 (proj2 (post_users_round_trip r {| Name := ""; Email := "a@b.com" |} bare
                         eq_refl eq_refl eq_refl))).
Defined.

End JSONResponseMore.

(** ** The router and the request logger *)
Section Router.
Import encoding_json.

Lemma matches_table e method path rt :
  In rt (echo.routes e) → echo.matches method path rt = true → (method, path) ∈ table e.
Proof.
  unfold echo.matches, table. intros Hin [Hm Hp]%andb_prop.
  apply bool_decide_eq_true in Hm, Hp. subst.
  apply list_elem_of_fmap. exists rt. split; [done|]. by apply list_elem_of_In.
Qed.

Lemma find_table e method path :
  (method, path) ∈ table e →
  ∃ rt, List.find (echo.matches method path) (echo.routes e) = Some rt ∧
        In rt (echo.routes e).
Proof.
  unfold table. intros (rt & Heq & Hin)%list_elem_of_fmap. injection Heq as -> ->.
  destruct (List.find _ _) as [rt'|] eqn:Hfind.
  - exists rt'. split; [done|]. by apply find_some in Hfind as [? _].
  - apply list_elem_of_In in Hin.
    pose proof (find_none _ _ Hfind rt Hin) as Hno.
    unfold echo.matches in Hno. by rewrite !bool_decide_eq_true_2 in Hno.
Qed.

Lemma existsb_paths e path :
  existsb (λ rt, bool_decide (echo.RoutePath rt = path)) (echo.routes e) = true
  ↔ path ∈ (table e).*2.
Proof.
  unfold table. rewrite existsb_exists, <- list_fmap_compose, list_elem_of_fmap.
  split.
  - intros (rt & Hin & Hp). apply bool_decide_eq_true in Hp.
    exists rt. split; [done | by apply list_elem_of_In].
  - intros (rt & -> & Hin). exists rt. split; [by apply list_elem_of_In|].
    by apply bool_decide_eq_true.
Qed.

Lemma DefaultHTTPErrorHandler_run code c w :
  code = 404 ∨ code = 405 →
  echo.DefaultHTTPErrorHandler code c w =
    Returns (echo.mkResponse code
               (if decide (http.ReqMethod (echo.Request c) = HEAD) then echo.Nothing
                else echo.JSONDoc (JObj [("message", JStr (http.StatusText code))]))) w.
Proof.
  unfold echo.DefaultHTTPErrorHandler. intros [-> | ->]; case_decide; reflexivity.
Qed.

Lemma Find_unrouted e r w :
  (http.ReqMethod r, http.URLPath r) ∉ table e →
  echo.Find (http.ReqMethod r) (http.URLPath r) e (echo.mkContext r) w =
    Returns (unrouted e r) w.
Proof.
  intros Hno. unfold echo.Find, unrouted.
  destruct (List.find _ _) as [rt|] eqn:Hfind.
  - apply find_some in Hfind as [Hin Hm]. destruct Hno. by eapply matches_table.
  - pose proof (existsb_paths e (http.URLPath r)) as Hp.
    destruct (existsb _ _).
    + assert (http.URLPath r ∈ (table e).*2) as Hin by by apply Hp.
      destruct (decide (http.ReqMethod r = OPTIONS)) as [Hopt|Hopt].
      * by rewrite decide_True.
      * rewrite decide_False by tauto. rewrite decide_True by done.
        by rewrite DefaultHTTPErrorHandler_run by auto.
    + assert (http.URLPath r ∉ (table e).*2) as Hin
        by (intros Hin; by apply Hp in Hin).
      rewrite decide_False by tauto. rewrite decide_False by done.
      by rewrite DefaultHTTPErrorHandler_run by auto.
Qed.

Lemma handlers_statuses (p : Program) :
  Forall (λ rt, ∀ c, ∃ res, (∀ w, echo.RouteHandler rt c w = Returns res w) ∧
                            (echo.Status res = 200 ∨ echo.Status res = 400))
         (echo.routes (server p)).
Proof.
  destruct p; simpl; repeat constructor; simpl; intros c;
    try (eexists; split; [intros w; reflexivity | by left]).
  unfold q2_json_response.POST_users.
  destruct (echo.Bind _ _) as [u [err|]]; eexists;
    (split; [intros w; reflexivity | simpl; auto]).
Qed.

Lemma Find_routed (p : Program) (r : http.Request) :
  (http.ReqMethod r, http.URLPath r) ∈ table (server p) →
  ∃ res, (∀ w, echo.Find (http.ReqMethod r) (http.URLPath r) (server p)
                 (echo.mkContext r) w = Returns res w) ∧
         (echo.Status res = 200 ∨ echo.Status res = 400).
Proof.
  intros (rt & Hfind & Hin)%find_table. unfold echo.Find. rewrite Hfind.
  pose proof (handlers_statuses p) as Hall. rewrite Forall_forall in Hall.
  apply (Hall rt). by apply list_elem_of_In.
Qed.

Lemma ServeHTTP_logs (p : Program) (r : http.Request) (w : World) :
  echo.ServeHTTP (server p) r w =
    match echo.Find (http.ReqMethod r) (http.URLPath r) (server p) (echo.mkContext r) w with
    | Returns res w' =>
        Returns res (if logs (server p) then add_log (request_line r res) w' else w')
    | Exits code w' => Exits code w'
    end.
Proof.
  unfold echo.ServeHTTP, logs. destruct p.
  1-3: change (echo.middleware _) with (@nil echo.MiddlewareFunc);
       cbn [echo.applyMiddleware foldr]; by destruct (echo.Find _ _ _ _ w).
  change (echo.middleware _) with [middleware.RequestLogger].
  cbn [echo.applyMiddleware foldr].
  unfold middleware.RequestLogger, mbind, Proc_bind.
  by destruct (echo.Find _ _ _ _ w).
Qed.

(** Which requests reach a handler.  A request whose method and path are
    those of a route is answered by its handler, with status 200 or 400;
    any other request is answered by the router itself: when the path has
    a route under another method, with 204 and no content if the method
    is [OPTIONS] and with 405 otherwise; when the path has no route, with
    404.  Only the todo server, the one with the request logger, then
    changes the world, by one log line. *)
Theorem router_answers (p : Program) (r : http.Request) (w : World) :
  ∃ res, echo.ServeHTTP (server p) r w =
           Returns res (if logs (server p) then add_log (request_line r res) w else w) ∧
         if decide ((http.ReqMethod r, http.URLPath r) ∈ table (server p))
         then echo.Status res = 200 ∨ echo.Status res = 400
         else res = unrouted (server p) r.
Proof.
  rewrite ServeHTTP_logs. case_decide as Hin.
  - destruct (Find_routed p r Hin) as (res & Hrun & Hst). exists res. by rewrite Hrun.
  - exists (unrouted (server p) r). by rewrite Find_unrouted.
Qed.

(** The routes the programs register. *)
Lemma tables cfg :
  table (server SimpleServer) = [(GET, "/")] ∧
  table (server JSONResponse) =
    [(POST, "/users"); (GET, "/users2"); (GET, "/user"); (GET, "/users")] ∧
  table (server JSONResponseGetOnly) = [(GET, "/users2"); (GET, "/user"); (GET, "/users")] ∧
  table (server (TodoApp cfg)) = [(GET, "/")].
Proof. by repeat split. Qed.

Lemma ServeHTTP_step (p : Program) (r : http.Request) :
  ∃ res, ∀ w, echo.ServeHTTP (server p) r w =
                Returns res (if logs (server p) then add_log (request_line r res) w else w).
Proof.
  pose proof (Find_stateless (http.ReqMethod r) (http.URLPath r) (server p)
                (handlers_stateless p) (echo.mkContext r)) as [res Hres].
  exists res. intros w. by rewrite ServeHTTP_logs, Hres.
Qed.

(** The request logger of the todo server writes one line for each
    request, in the order the requests come, with the status of the
    response; the servers without it leave the log as it was.  Nothing
    else of the world changes. *)
Theorem serve_logs (p : Program) (requests : list http.Request) (w : World) :
  ∃ responses w',
    serve (server p) requests w = Returns responses w' ∧
    length responses = length requests ∧
    environ w' = environ w ∧ dotenv_file w' = dotenv_file w ∧
    listeners w' = listeners w ∧
    logged w' = (logged w ++ if logs (server p)
                             then zip_with request_line requests responses
                             else [])%list.
Proof.
  revert w. induction requests as [|r rs IH]; intros w.
  - exists [], w. repeat split. by destruct (logs _); rewrite app_nil_r.
  - destruct (ServeHTTP_step p r) as [res Hres].
    destruct (IH (if logs (server p) then add_log (request_line r res) w else w))
      as (ress & w' & Hrun & Hlen & He & Hd & Hl & Hg).
    exists (res :: ress), w'. split.
    { unfold serve in *. simpl. unfold mbind, Proc_bind at 1. rewrite Hres.
      unfold mbind, Proc_bind at 1. by rewrite Hrun. }
    split; [simpl; by f_equal|].
    rewrite He, Hd, Hl, Hg. destruct (logs (server p)); simpl; [|done].
    repeat split. by rewrite <- app_assoc.
Qed.

End Router.
